(** * PyMongoDemoServer: a shallow embedding of [my_mcp_app/server.py]

    The server exposes four resources, two tools and two prompts over a
    MongoDB database.  Every handler is a thin wrapper: an inner closure
    [db_call_sync] performs one driver call and shapes a Python dict, and the
    handler returns [await run_sync(db_call_sync)].

    The embedding keeps that structure.  Python values are an inductive type,
    dicts are association lists in insertion order, exceptions are values of
    an error type, and the database the lifespan context points to is an
    explicit state threaded through a small state-and-exception monad. *)

From Stdlib Require Import String Ascii List ZArith NArith Bool Lia.
From Stdlib Require Import DecimalString.
Import ListNotations.
Local Open Scope string_scope.
Local Set Warnings "-register-all".

(** ** Python values and dicts *)

Inductive value : Type :=
| VNone
| VBool (b : bool)
| VInt (z : Z)
| VStr (s : string)
| VObjectId (oid : N)
| VList (l : list value)
| VDict (d : list (string * value)).

Definition dict : Type := list (string * value).

(** [d.get(k)]: the binding of [k], [None] when absent. *)
Fixpoint dict_get (k : string) (d : dict) : option value :=
  match d with
  | [] => None
  | (k', v) :: d' => if String.eqb k k' then Some v else dict_get k d'
  end.

(** [d[k] = v]: overwrite in place, or append a new key. *)
Fixpoint dict_set (k : string) (v : value) (d : dict) : dict :=
  match d with
  | [] => [(k, v)]
  | (k', v') :: d' =>
      if String.eqb k k' then (k', v) :: d' else (k', v') :: dict_set k v d'
  end.

(** Truth value of a dict: [if document:] is false on [None] and on [{}]. *)
Definition dict_truthy (d : dict) : bool :=
  match d with [] => false | _ :: _ => true end.

(** Structural equality of values, as BSON compares them (key order counts). *)
Fixpoint value_eqb (a b : value) {struct a} : bool :=
  match a, b with
  | VNone, VNone => true
  | VBool x, VBool y => Bool.eqb x y
  | VInt x, VInt y => Z.eqb x y
  | VStr x, VStr y => String.eqb x y
  | VObjectId x, VObjectId y => N.eqb x y
  | VList l1, VList l2 =>
      (fix go (xs ys : list value) : bool :=
         match xs, ys with
         | [], [] => true
         | x :: xs', y :: ys' => value_eqb x y && go xs' ys'
         | _, _ => false
         end) l1 l2
  | VDict d1, VDict d2 =>
      (fix go (xs ys : list (string * value)) : bool :=
         match xs, ys with
         | [], [] => true
         | (k, x) :: xs', (k', y) :: ys' =>
             String.eqb k k' && value_eqb x y && go xs' ys'
         | _, _ => false
         end) d1 d2
  | _, _ => false
  end.

(** [str(ObjectId(...))]: the 24 hexadecimal digits of the 12-byte id. *)
Definition hex_digit (n : N) : ascii :=
  match n with
  | 0 => "0" | 1 => "1" | 2 => "2" | 3 => "3" | 4 => "4" | 5 => "5"
  | 6 => "6" | 7 => "7" | 8 => "8" | 9 => "9" | 10 => "a" | 11 => "b"
  | 12 => "c" | 13 => "d" | 14 => "e" | _ => "f"
  end%N%char.

Fixpoint hex_digits (k : nat) (n : N) (acc : string) : string :=
  match k with
  | O => acc
  | S k' => hex_digits k' (N.div n 16) (String (hex_digit (N.modulo n 16)) acc)
  end.

Definition ObjectId_str (oid : N) : string := hex_digits 24 oid "".

(** ** Exceptions *)

(** The exception classes the source names or can meet.  [AutoReconnect],
    [NetworkTimeout] and [ServerSelectionTimeoutError] are subclasses of
    pymongo's [ConnectionFailure]; an [except ConnectionFailure] clause
    catches them.  [InvalidName] is what subscripting a database with a bad
    collection name raises, [OverflowError] what encoding an integer beyond
    eight bytes raises. *)
Inductive exn_class : Type :=
| ConnectionFailure
| AutoReconnect
| NetworkTimeout
| ServerSelectionTimeoutError
| OperationFailure
| DuplicateKeyError
| InvalidName
| OverflowError
| RuntimeError
| OtherException.

Record exn : Type := mkExn { exn_kind : exn_class; exn_str : string }.

Definition is_ConnectionFailure (e : exn) : bool :=
  match exn_kind e with
  | ConnectionFailure | AutoReconnect | NetworkTimeout
  | ServerSelectionTimeoutError => true
  | _ => false
  end.

Inductive outcome (A : Type) : Type :=
| Return (a : A)
| Raise (e : exn).
Arguments Return {A} a.
Arguments Raise {A} e.

(** ** The database behind the lifespan context

    [app_ctx.db] is a handle on one MongoDB database.  The model keeps the
    collections that exist, each with its documents in natural (insertion)
    order, the counter the driver draws fresh ObjectIds from, and the fault
    the deployment is suffering, if any: while [outage] is [Some e] every
    round trip to the server raises [e], before the server acted or, for a
    [NetworkTimeout], after it acted and its reply was lost. *)
Record mongo : Type := mkMongo {
  collections : list (string * list dict);
  oid_counter : N;
  outage : option exn
}.

Fixpoint lookup_collection (name : string) (cs : list (string * list dict))
  : list dict :=
  match cs with
  | [] => []
  | (n, docs) :: cs' =>
      if String.eqb name n then docs else lookup_collection name cs'
  end.

Fixpoint store_collection (name : string) (docs : list dict)
         (cs : list (string * list dict)) : list (string * list dict) :=
  match cs with
  | [] => [(name, docs)]
  | (n, old) :: cs' =>
      if String.eqb name n then (n, docs) :: cs'
      else (n, old) :: store_collection name docs cs'
  end.

(** Equality match of one query field against a document: the field is equal
    to the value, or is an array holding it; a [null] query value also
    matches a missing field. *)
Definition field_matches (doc : dict) (kv : string * value) : bool :=
  match dict_get (fst kv) doc with
  | Some (VList l) =>
      value_eqb (VList l) (snd kv) || existsb (fun x => value_eqb x (snd kv)) l
  | Some w => value_eqb w (snd kv)
  | None => value_eqb VNone (snd kv)
  end.

Definition matches_query (query doc : dict) : bool :=
  forallb (field_matches doc) query.

(** Remove the first element satisfying [p]; [None] when there is none. *)
Fixpoint remove_first {A : Type} (p : A -> bool) (l : list A)
  : option (list A) :=
  match l with
  | [] => None
  | x :: l' =>
      if p x then Some l'
      else match remove_first p l' with
           | Some r => Some (x :: r)
           | None => None
           end
  end.

(** ** The state-and-exception monad

    A computation over a state [S] either returns a value or raises, and
    leaves a state behind in both cases.  Handlers run over [mongo]; the
    lifespan manager runs over [world], declared further down. *)

Definition M (S A : Type) : Type := S -> outcome A * S.

Definition ret {S A : Type} (a : A) : M S A := fun st => (Return a, st).

Definition raise {S A : Type} (e : exn) : M S A := fun st => (Raise e, st).

Definition bind {S A B : Type} (c : M S A) (k : A -> M S B) : M S B :=
  fun st =>
    match c st with
    | (Return a, st') => k a st'
    | (Raise e, st') => (Raise e, st')
    end.

(** [try: c  except Exception as e: h e] *)
Definition try_except {S A : Type} (c : M S A) (h : exn -> M S A) : M S A :=
  fun st =>
    match c st with
    | (Return a, st') => (Return a, st')
    | (Raise e, st') => h e st'
    end.

(** [try: c  except pymongo.errors.ConnectionFailure as e: h e]; the other
    classes pass through the clause. *)
Definition try_except_ConnectionFailure {S A : Type}
           (c : M S A) (h : exn -> M S A) : M S A :=
  fun st =>
    match c st with
    | (Return a, st') => (Return a, st')
    | (Raise e, st') =>
        if is_ConnectionFailure e then h e st' else (Raise e, st')
    end.

(** [try: c  finally: fin]: [fin] runs on both exits; an exception of [fin]
    replaces the outcome of [c]. *)
Definition try_finally {S A : Type} (c : M S A) (fin : M S unit) : M S A :=
  fun st =>
    match c st with
    | (r, st') =>
        match fin st' with
        | (Return _, st'') => (r, st'')
        | (Raise e, st'') => (Raise e, st'')
        end
    end.

Declare Scope monad_scope.
Delimit Scope monad_scope with monad.
Notation "x <- c ;; k" := (bind c (fun x => k))
  (at level 61, c at next level, right associativity) : monad_scope.
Local Open Scope monad_scope.

(** ** The driver calls the handlers make *)

(** A fault that strikes after the server has acted: the reply is lost. *)
Definition reply_lost (e : exn) : bool :=
  match exn_kind e with
  | NetworkTimeout => true
  | _ => false
  end.

(** One round trip to the server.  Under a fault the call raises; whether
    the operation took effect depends on where the fault struck. *)
Definition round_trip {A : Type} (op : M mongo A) : M mongo A :=
  fun st =>
    match outage st with
    | Some e => if reply_lost e then (Raise e, snd (op st)) else (Raise e, st)
    | None => op st
    end.

(** [needle in s] *)
Definition contains (needle s : string) : bool :=
  match String.index 0 needle s with
  | Some _ => true
  | None => false
  end.

(** The check the driver makes on a collection name. *)
Definition valid_collection_name (name : string) : bool :=
  negb (String.eqb name "")
  && negb (contains ".." name)
  && (negb (contains "$" name)
      || String.prefix "oplog.$main" name || String.prefix "$cmd" name)
  && negb (String.prefix "." name)
  && negb (match String.get (String.length name - 1) name with
           | Some c => Ascii.eqb c "."
           | None => false
           end)
  && negb (contains (String zero EmptyString) name).

(** [db[collection_name]]: the collection handle, without a round trip;
    [InvalidName] for a name the driver refuses. *)
Definition Database_getitem (collection_name : string) : M mongo string :=
  if valid_collection_name collection_name then ret collection_name
  else raise (mkExn InvalidName "invalid collection name").

(** What the driver can encode: integers of at most eight bytes, at every
    depth. *)
Fixpoint bson_encodable (v : value) : bool :=
  match v with
  | VInt z => (- 2 ^ 63 <=? z)%Z && (z <? 2 ^ 63)%Z
  | VList l => forallb bson_encodable l
  | VDict d =>
      (fix go (d : list (string * value)) : bool :=
         match d with
         | [] => true
         | (_, x) :: d' => bson_encodable x && go d'
         end) d
  | _ => true
  end.

(** [d] without the key [k]. *)
Fixpoint dict_remove (k : string) (d : dict) : dict :=
  match d with
  | [] => []
  | (k', v) :: d' =>
      if String.eqb k k' then dict_remove k d' else (k', v) :: dict_remove k d'
  end.

(** [client.admin.command('ping')] *)
Definition ping : M mongo unit := round_trip (ret tt).

(** [collection.find_one(query)]: the first matching document, or [None]. *)
Definition find_one (collection_name : string) (query : dict)
  : M mongo (option dict) :=
  round_trip (fun st =>
    (Return (find (matches_query query)
                  (lookup_collection collection_name (collections st))), st)).

(** Iterating [collection.find({}).limit(n)]: at most [n] documents, in
    natural order; [{}] matches every document. *)
Definition find_limit (collection_name : string) (n : nat)
  : M mongo (list dict) :=
  round_trip (fun st =>
    (Return (firstn n (filter (matches_query [])
                         (lookup_collection collection_name (collections st)))),
     st)).

(** [db.list_collection_names()] *)
Definition list_collection_names : M mongo (list string) :=
  round_trip (fun st => (Return (map fst (collections st)), st)).

(** [collection.insert_one(doc)]: a document the driver cannot encode
    raises before anything is sent.  A document without [_id] receives a
    fresh ObjectId; the document is written with [_id] as its first key; an
    [_id] already present in the collection is a [DuplicateKeyError].
    Returns [result.inserted_id]. *)
Definition insert_one (collection_name : string) (doc : dict)
  : M mongo value :=
  if negb (bson_encodable (VDict doc))
  then raise (mkExn OverflowError "MongoDB can only handle up to 8-byte ints")
  else
  round_trip (fun st =>
    let docs := lookup_collection collection_name (collections st) in
    let '(id, next) :=
      match dict_get "_id" doc with
      | Some v => (v, oid_counter st)
      | None => (VObjectId (oid_counter st), N.succ (oid_counter st))
      end in
    let stored := ("_id", id) :: dict_remove "_id" doc in
    if existsb (fun d => match dict_get "_id" d with
                         | Some w => value_eqb w id
                         | None => false
                         end) docs
    then (Raise (mkExn DuplicateKeyError "E11000 duplicate key error"), st)
    else (Return id,
          mkMongo (store_collection collection_name (docs ++ [stored])%list
                                    (collections st))
                  next (outage st))).

(** [collection.delete_one(query)]: removes the first matching document.
    Returns [result.deleted_count]. *)
Definition delete_one (collection_name : string) (query : dict)
  : M mongo Z :=
  round_trip (fun st =>
    match remove_first (matches_query query)
                       (lookup_collection collection_name (collections st)) with
    | Some rest =>
        (Return 1%Z,
         mkMongo (store_collection collection_name rest (collections st))
                 (oid_counter st) (outage st))
    | None => (Return 0%Z, st)
    end).

(** ** Execution bridge: [run_sync] *)

(** An asyncio event loop, as far as [run_sync] looks at it. *)
Record event_loop : Type := mkLoop { is_running : bool }.

(** The calling context: the event loop running in the current thread, if
    there is one. *)
Definition scheduler : Type := option event_loop.

(** [asyncio.get_running_loop()] returns the running loop and raises
    [RuntimeError] when the current thread has none. *)
Definition get_running_loop {S : Type} (sched : scheduler) : M S event_loop :=
  match sched with
  | Some loop => ret loop
  | None => raise (mkExn RuntimeError "no running event loop")
  end.

(** [await asyncio.to_thread(func)]: [func] runs in a worker thread and its
    result, or its exception, comes back to the awaiting coroutine. *)
Definition to_thread {S A : Type} (func : M S A) : M S A := func.

Definition run_sync {S A : Type} (sched : scheduler) (func : M S A) : M S A :=
  loop <- get_running_loop sched ;;
  if is_running loop then to_thread func else func.

(** The context handlers are served in: the server's own running loop. *)
Definition server_loop : scheduler := Some (mkLoop true).

(** ** Configuration *)

Definition DATABASE_NAME : string := "my_mcp_db_sync".

Definition mcp_name : string := "PyMongoDemoServer".

(** ** Python's [str] on the values the handlers print *)

Section Str.

(** [repr] of lists and dicts is left abstract. *)
Variable py_repr : value -> string.

Definition py_str (v : value) : string :=
  match v with
  | VNone => "None"
  | VBool true => "True"
  | VBool false => "False"
  | VInt z => NilZero.string_of_int (Z.to_int z)
  | VStr s => s
  | VObjectId oid => ObjectId_str oid
  | VList _ | VDict _ => py_repr v
  end.

End Str.

(** ** Resources *)

Section Handlers.

(** [os.environ.get("MONGODB_URI", "mongodb://localhost:27017")] *)
Variable MONGODB_URI : string.

Variable py_repr : value -> string.

Definition get_app_info (sched : scheduler) : M mongo dict :=
  let check_connection_sync : M mongo string :=
    try_except_ConnectionFailure
      (_ <- ping ;; ret "Connected")
      (fun _ => ret "Connection Error") in
  db_status <- run_sync sched check_connection_sync ;;
  ret [("server_name", VStr mcp_name);
       ("server_version", VStr "1.0.0");
       ("mongodb_uri", VStr MONGODB_URI);
       ("database_name", VStr DATABASE_NAME);
       ("db_status", VStr db_status)].

Definition get_mongo_item (sched : scheduler)
           (collection_name item_id : string) : M mongo dict :=
  let db_call_sync : M mongo dict :=
    let query := [("name", VStr item_id)] in
    document <- find_one collection_name query ;;
    match document with
    | Some document =>
        if dict_truthy document then
          let document :=
            match dict_get "_id" document with
            | Some (VObjectId oid) =>
                dict_set "_id" (VStr (ObjectId_str oid)) document
            | _ => document
            end in
          ret [("found", VBool true);
               ("collection", VStr collection_name);
               ("item", VDict document)]
        else
          ret [("found", VBool false);
               ("collection", VStr collection_name);
               ("query", VDict query);
               ("message", VStr "Item not found")]
    | None =>
        ret [("found", VBool false);
             ("collection", VStr collection_name);
             ("query", VDict query);
             ("message", VStr "Item not found")]
    end in
  run_sync sched db_call_sync.

Definition list_all_in_collection (sched : scheduler)
           (collection_name : string) : M mongo dict :=
  let db_call_sync : M mongo dict :=
    cursor <- find_limit collection_name 20 ;;
    let documents_list :=
      fold_left
        (fun documents_list doc =>
           let doc :=
             match dict_get "_id" doc with
             | Some (VObjectId oid) =>
                 dict_set "_id" (VStr (ObjectId_str oid)) doc
             | _ => doc
             end in
           (documents_list ++ [doc])%list)
        cursor [] in
    ret [("collection", VStr collection_name);
         ("count", VInt (Z.of_nat (length documents_list)));
         ("items", VList (map VDict documents_list))] in
  run_sync sched db_call_sync.

Definition list_mongo_collections (sched : scheduler) : M mongo (list string) :=
  let db_call_sync : M mongo (list string) :=
    try_except
      list_collection_names
      (fun e => ret ["Error listing collections: " ++ exn_str e]) in
  run_sync sched db_call_sync.

(** ** Tools *)

(** [item_data] arrives loosely typed: any value, a dict when well formed. *)
Definition add_mongo_item (sched : scheduler)
           (collection_name : string) (item_data : value) : M mongo dict :=
  let db_call_sync : M mongo dict :=
    collection <- Database_getitem collection_name ;;
    try_except
      (match item_data with
       | VDict item_data =>
           inserted_id <- insert_one collection item_data ;;
           ret [("success", VBool true);
                ("collection", VStr collection_name);
                ("inserted_id", VStr (py_str py_repr inserted_id))]
       | _ =>
           ret [("success", VBool false);
                ("error", VStr "item_data must be a dictionary")]
       end)
      (fun e => ret [("success", VBool false); ("error", VStr (exn_str e))]) in
  run_sync sched db_call_sync.

Definition delete_mongo_item (sched : scheduler)
           (collection_name item_name_to_delete : string) : M mongo dict :=
  let db_call_sync : M mongo dict :=
    collection <- Database_getitem collection_name ;;
    let query := [("name", VStr item_name_to_delete)] in
    try_except
      (deleted_count <- delete_one collection query ;;
       if (deleted_count >? 0)%Z then
         ret [("success", VBool true);
              ("deleted_count", VInt deleted_count);
              ("query", VDict query)]
       else
         ret [("success", VBool false);
              ("deleted_count", VInt 0);
              ("message", VStr "No item found matching query");
              ("query", VDict query)])
      (fun e => ret [("success", VBool false); ("error", VStr (exn_str e))]) in
  run_sync sched db_call_sync.

End Handlers.

(** ** Server state and lifespan management *)

Record MongoClient : Type := mkMongoClient { client_uri : string }.

Record Database : Type := mkDatabase {
  database_client : MongoClient;
  database_name : string
}.

Record AppContext : Type := mkAppContext {
  db : Database;
  mongo_client : MongoClient
}.

(** What the lifespan manager does to the outside: lines printed, commands
    sent through the client, the context handed to the server at [yield],
    and the closing of the client. *)
Inductive event : Type :=
| Print (line : string)
| AdminCommand (name : string)
| Yield (ctx : AppContext)
| ClientClose.

Record world : Type := mkWorld { store : mongo; journal : list event }.

Definition emit (ev : event) : M world unit :=
  fun w => (Return tt, mkWorld (store w) (journal w ++ [ev])%list).

Definition print (line : string) : M world unit := emit (Print line).

(** Run a database computation inside the world. *)
Definition on_store {A : Type} (c : M mongo A) : M world A :=
  fun w =>
    match c (store w) with
    | (r, st') => (r, mkWorld st' (journal w))
    end.

(** A client object is always true: [if mongo_client:] takes the branch. *)
Definition MongoClient_truthy (c : MongoClient) : bool := true.

Section Lifespan.

Variable MONGODB_URI : string.

(** The generator behind [@contextmanager], with the server's run between
    startup and shutdown as the continuation [serve]: it receives the
    yielded context and works on the database. *)
Definition app_lifespan_sync {A : Type} (serve : AppContext -> M mongo A)
  : M world A :=
  _ <- print "MCP Server (Sync): Lifespan starting up..." ;;
  _ <- print ("Attempting to connect to MongoDB at " ++ MONGODB_URI ++ "...") ;;
  let mongo_client := mkMongoClient MONGODB_URI in
  _ <- try_except_ConnectionFailure
         (_ <- emit (AdminCommand "ping") ;;
          _ <- on_store ping ;;
          print ("Successfully connected to MongoDB, database: '"
                 ++ DATABASE_NAME ++ "'."))
         (fun e =>
            _ <- print ("Failed to connect to MongoDB: " ++ exn_str e) ;;
            raise e) ;;
  let db := mkDatabase mongo_client DATABASE_NAME in
  try_finally
    (_ <- emit (Yield (mkAppContext db mongo_client)) ;;
     on_store (serve (mkAppContext db mongo_client)))
    (_ <- print "MCP Server (Sync): Lifespan shutting down..." ;;
     _ <- (if MongoClient_truthy mongo_client then
             _ <- emit ClientClose ;;
             print "MongoDB connection closed."
           else ret tt) ;;
     print "MCP Server (Sync): Lifespan shutdown complete.").

End Lifespan.

(** ** Resource routing *)

Module Router.

(** [s.split(c)] *)
Fixpoint split_on (c : ascii) (s : string) : list string :=
  match s with
  | EmptyString => [EmptyString]
  | String a s' =>
      if Ascii.eqb a c then EmptyString :: split_on c s'
      else match split_on c s' with
           | [] => [String a EmptyString]
           | hd :: tl => String a hd :: tl
           end
  end.

Inductive segment : Type :=
| Literal (text : string)
| Placeholder (name : string).

(** The text before a final closing brace, if the string ends with one. *)
Fixpoint before_closing_brace (s : string) : option string :=
  match s with
  | EmptyString => None
  | String a EmptyString =>
      if Ascii.eqb a "}" then Some EmptyString else None
  | String a s' => option_map (String a) (before_closing_brace s')
  end.

Definition parse_segment (s : string) : segment :=
  match s with
  | String a s' =>
      if Ascii.eqb a "{" then
        match before_closing_brace s' with
        | Some name => Placeholder name
        | None => Literal s
        end
      else Literal s
  | EmptyString => Literal s
  end.

Definition split_segments (uri : string) : list string := split_on "/" uri.

Definition parse_template (template : string) : list segment :=
  map parse_segment (split_segments template).

Definition params : Type := list (string * string).

(** Modelled from the spec: the matching algorithm of the resource router
    (section 4.3), which lives in the framework behind [@mcp.resource] and
    not in this repository.  Segment counts must be equal, a literal segment
    matches exactly and case-sensitively at its position, a placeholder
    matches any non-empty segment and is bound to its name in order. *)
Fixpoint match_segments (t : list segment) (u : list string) : option params :=
  match t, u with
  | [], [] => Some []
  | Literal text :: t', x :: u' =>
      if String.eqb text x then match_segments t' u' else None
  | Placeholder name :: t', x :: u' =>
      if String.eqb x "" then None
      else option_map (cons (name, x)) (match_segments t' u')
  | _, _ => None
  end.

Definition template_match (template uri : string) : option params :=
  match_segments (parse_template template) (split_segments uri).

Definition matches (template uri : string) : bool :=
  match template_match template uri with
  | Some _ => true
  | None => false
  end.

(** The handlers the source binds with [@mcp.resource]. *)
Inductive resource_handler : Type :=
| Hget_app_info
| Hget_mongo_item
| Hlist_all_in_collection
| Hlist_mongo_collections.

(** The decorator stores the template with its handler; the source makes no
    check of its own between templates. *)
Definition register (template : string) (handler : resource_handler)
           (registry : list (string * resource_handler))
  : list (string * resource_handler) :=
  (registry ++ [(template, handler)])%list.

(** The four [@mcp.resource] decorators, in the order the module runs them. *)
Definition resource_templates : list (string * resource_handler) :=
  register "mongo://collections" Hlist_mongo_collections
    (register "mongo://{collection_name}/list_all" Hlist_all_in_collection
       (register "mongo://{collection_name}/{item_id}" Hget_mongo_item
          (register "app://info" Hget_app_info []))).

(** The registered templates an incoming URI matches, in registration
    order. *)
Definition matching_templates (uri : string)
  : list (string * resource_handler) :=
  filter (fun entry => matches (fst entry) uri) resource_templates.

End Router.

(** ** Prompts *)

(** A prompt message, as the framework's [UserMessage] builds it. *)
Record Message : Type := mkMessage { role : string; content : string }.

Definition UserMessage (text : string) : Message := mkMessage "user" text.

(** The line feed of the f-string's [\n]. *)
Definition newline : string := String (ascii_of_nat 10) EmptyString.

(** [max_length] defaults to 100 when the caller leaves it out. *)
Definition generate_summary_request
           (text_to_summarize : string) (max_length : option Z) : string :=
  let max_length := match max_length with Some m => m | None => 100%Z end in
  "Please summarize the following text in under "
  ++ NilZero.string_of_int (Z.to_int max_length)
  ++ " words:" ++ newline ++ newline ++ text_to_summarize.

Definition ask_about_mongo_item (collection item_name : string)
  : list Message :=
  [UserMessage ("Tell me about the item named '" ++ item_name
                ++ "' in the '" ++ collection ++ "' MongoDB collection.")].

(** * Vocabulary of the properties *)

(** How many documents a query selects. *)
Definition count_matching (query : dict) (docs : list dict) : nat :=
  length (filter (matches_query query) docs).

(** The closing of the client among the events. *)
Definition is_ClientClose (ev : event) : bool :=
  match ev with ClientClose => true | _ => false end.


(** The [_id] under which [insert_one] stores [doc]. *)
Definition document_id (st : mongo) (doc : dict) : value :=
  match dict_get "_id" doc with
  | Some v => v
  | None => VObjectId (oid_counter st)
  end.

(** The document [insert_one] stores for [doc]: its [_id], brought or
    fresh, as first key, then the other fields of [doc] in their order. *)
Definition stored_document (st : mongo) (doc : dict) : dict :=
  ("_id", document_id st doc) :: dict_remove "_id" doc.

(** An [_id] already taken in a list of documents. *)
Definition id_taken (id : value) (docs : list dict) : bool :=
  existsb (fun d => match dict_get "_id" d with
                    | Some w => value_eqb w id
                    | None => false
                    end) docs.

(** The in-line coercion both read handlers apply to a document: an [_id]
    that is an [ObjectId] becomes its string form. *)
Definition stringify_id (doc : dict) : dict :=
  match dict_get "_id" doc with
  | Some (VObjectId oid) => dict_set "_id" (VStr (ObjectId_str oid)) doc
  | _ => doc
  end.

(** The documents [find({}).limit(20)] iterates over. *)
Definition listed (collection_name : string) (st : mongo) : list dict :=
  firstn 20 (filter (matches_query [])
                    (lookup_collection collection_name (collections st))).


(** The store once [insert_one] has acted on it. *)
Definition after_insert (c : string) (doc : dict) (st : mongo) : mongo :=
  if id_taken (document_id st doc) (lookup_collection c (collections st))
  then st
  else mkMongo (store_collection c
                  (lookup_collection c (collections st)
                   ++ [stored_document st doc])%list
                  (collections st))
               (match dict_get "_id" doc with
                | Some _ => oid_counter st
                | None => N.succ (oid_counter st)
                end)
               (outage st).

(** The store once [delete_one] has acted on it. *)
Definition after_delete (c : string) (query : dict) (st : mongo) : mongo :=
  match remove_first (matches_query query)
                     (lookup_collection c (collections st)) with
  | Some rest =>
      mkMongo (store_collection c rest (collections st))
              (oid_counter st) (outage st)
  | None => st
  end.

(** The context the manager builds. *)
Definition lifespan_context (MONGODB_URI : string) : AppContext :=
  mkAppContext (mkDatabase (mkMongoClient MONGODB_URI) DATABASE_NAME)
               (mkMongoClient MONGODB_URI).

Definition startup_lines (MONGODB_URI : string) : list event :=
  [Print "MCP Server (Sync): Lifespan starting up...";
   Print ("Attempting to connect to MongoDB at " ++ MONGODB_URI ++ "...");
   AdminCommand "ping"].

(** * Properties *)

(** ** Generic facts *)

Lemma fold_left_append_map {A B : Type}
      (f : A -> B) (l : list A) (acc : list B) :
  fold_left (fun acc x => (acc ++ [f x])%list) l acc = (acc ++ map f l)%list.
Proof.
  revert acc.
  induction l as [|x l IH]; intros acc; simpl.
  - now rewrite app_nil_r.
  - rewrite IH, <- app_assoc. reflexivity.
Qed.

Lemma prefix_append (p s : string) : String.prefix p (p ++ s) = true.
Proof.
  induction p as [|a p IH]; simpl.
  - now destruct s.
  - destruct (ascii_dec a a) as [_|ne]; [exact IH | now elim ne].
Qed.

Lemma value_eqb_VStr (w : value) (s : string) :
  value_eqb w (VStr s) = true <-> w = VStr s.
Proof.
  destruct w; simpl; split; intros H; try discriminate.
  - apply String.eqb_eq in H. now subst.
  - injection H as ->. apply String.eqb_refl.
Qed.

(** ** Execution bridge *)

(** Inside the server's running loop [run_sync] yields what the operation
    yields. *)
Lemma run_sync_server_loop {S A : Type} (func : M S A) (st : S) :
  run_sync server_loop func st = func st.
Proof. reflexivity. Qed.

(** C3, the behaviour of the code where the claim fails: with no running
    event loop [asyncio.get_running_loop()] raises [RuntimeError] before the
    test of [is_running] is reached, so [run_sync] neither takes the
    fallback branch nor executes the operation; the state is untouched and
    the outcome does not depend on the operation. *)
Theorem run_sync_no_running_loop_raises :
  forall (S A : Type) (func : M S A) (st : S),
    run_sync None func st
    = (Raise (mkExn RuntimeError "no running event loop"), st).
Proof. reflexivity. Qed.

(** The two branches of [run_sync] agree whenever a loop is there to be
    tested. *)
Lemma run_sync_some_loop {S A : Type}
      (loop : event_loop) (func : M S A) (st : S) :
  run_sync (Some loop) func st = func st.
Proof.
  unfold run_sync, get_running_loop, bind, ret, to_thread.
  now destruct (is_running loop).
Qed.

(** A handler body run through the bridge either raised for want of a loop
    or did what the body does. *)
Lemma run_sync_cases {S A : Type}
      (sched : scheduler) (func : M S A) (st : S) :
  (sched = None /\
   run_sync sched func st
   = (Raise (mkExn RuntimeError "no running event loop"), st))
  \/ run_sync sched func st = func st.
Proof.
  destruct sched as [loop|].
  - right. apply run_sync_some_loop.
  - left. split; reflexivity.
Qed.

(** ** Resources that read documents *)

Lemma list_all_in_collection_outcome
      (sched : scheduler) (c : string) (st : mongo) :
  list_all_in_collection sched c st =
  match sched, outage st with
  | None, _ => (Raise (mkExn RuntimeError "no running event loop"), st)
  | Some _, Some e => (Raise e, st)
  | Some _, None =>
      (Return [("collection", VStr c);
               ("count",
                VInt (Z.of_nat (length (map stringify_id (listed c st)))));
               ("items", VList (map VDict (map stringify_id (listed c st))))],
       st)
  end.
Proof.
  destruct sched as [loop|]; [|reflexivity].
  unfold list_all_in_collection. rewrite run_sync_some_loop.
  unfold bind, find_limit, round_trip, ret.
  destruct (outage st) as [e|]; [now destruct (reply_lost e)|].
  rewrite (fold_left_append_map stringify_id). reflexivity.
Qed.





(** ** Collection enumeration *)

(** C9: when the driver call succeeds [list_mongo_collections] returns the
    names of the collections that exist; when it raises, the handler returns
    a list of exactly one string that begins "Error listing collections: "
    and carries the text of the exception; it does not raise. *)
Theorem list_mongo_collections_never_raises :
  forall (cs : list (string * list dict)) (n : N),
    list_mongo_collections server_loop (mkMongo cs n None)
    = (Return (map fst cs), mkMongo cs n None)
    /\ forall e : exn,
         list_mongo_collections server_loop (mkMongo cs n (Some e))
         = (Return ["Error listing collections: " ++ exn_str e],
            mkMongo cs n (Some e))
         /\ String.prefix "Error listing collections: "
                          ("Error listing collections: " ++ exn_str e) = true.
Proof.
  intros cs n. split; [reflexivity|].
  intros e. split; [|apply prefix_append].
  unfold list_mongo_collections. rewrite run_sync_server_loop.
  unfold try_except, list_collection_names, round_trip. cbn [outage].
  now destruct (reply_lost e).
Qed.

(** ** The store *)

Lemma lookup_store_same (c : string) (docs : list dict)
      (cs : list (string * list dict)) :
  lookup_collection c (store_collection c docs cs) = docs.
Proof.
  induction cs as [|[n old] cs IH]; simpl.
  - now rewrite String.eqb_refl.
  - destruct (String.eqb c n) eqn:E; simpl; rewrite E; [reflexivity | exact IH].
Qed.

Lemma lookup_store_other (c c' : string) (docs : list dict)
      (cs : list (string * list dict)) :
  c' <> c ->
  lookup_collection c' (store_collection c docs cs) = lookup_collection c' cs.
Proof.
  intros Hne.
  assert (Hc : String.eqb c' c = false) by now apply String.eqb_neq.
  induction cs as [|[n old] cs IH]; simpl.
  - now rewrite Hc.
  - destruct (String.eqb_spec c n) as [->|Hn]; simpl.
    + now rewrite Hc.
    + now rewrite IH.
Qed.

Lemma remove_first_None {A : Type} (p : A -> bool) (l : list A) :
  remove_first p l = None -> existsb p l = false.
Proof.
  induction l as [|x l IH]; simpl; [reflexivity|].
  destruct (p x); [discriminate|].
  destruct (remove_first p l); [discriminate|].
  intros _. now apply IH.
Qed.

Lemma remove_first_Some {A : Type} (p : A -> bool) (l r : list A) :
  remove_first p l = Some r ->
  existsb p l = true
  /\ exists l1 x l2,
       l = (l1 ++ x :: l2)%list /\ r = (l1 ++ l2)%list /\ p x = true
       /\ existsb p l1 = false.
Proof.
  revert r.
  induction l as [|x l IH]; simpl; intros r; [discriminate|].
  destruct (p x) eqn:Hp.
  - intros [= <-]. split; [reflexivity|].
    exists [], x, l. now repeat split.
  - destruct (remove_first p l) as [r'|]; [|discriminate].
    intros [= <-].
    destruct (IH r' eq_refl) as (Hex & l1 & y & l2 & -> & -> & Hy & Hl1).
    split; [exact Hex|].
    exists (x :: l1), y, l2. repeat split; simpl; trivial.
    now rewrite Hp.
Qed.

(** What the query [{"name": s}] selects: documents whose [name] field is the
    string [s], or an array holding it. *)
Lemma matches_name_query (s : string) (doc : dict) :
  matches_query [("name", VStr s)] doc = true <->
  dict_get "name" doc = Some (VStr s)
  \/ exists l, dict_get "name" doc = Some (VList l) /\ In (VStr s) l.
Proof.
  unfold matches_query, field_matches. simpl.
  rewrite andb_true_r.
  destruct (dict_get "name" doc) as [w|] eqn:E.
  - destruct w; simpl; split; intros H;
      try discriminate;
      try (destruct H as [[= H] | (l' & [= H] & _)]; discriminate).
    + apply String.eqb_eq in H. left. now subst.
    + destruct H as [[= ->] | (l' & [= H] & _)]. apply String.eqb_refl.
    + right. exists l. split; [reflexivity|].
      apply existsb_exists in H. destruct H as (x & Hin & Hx).
      apply value_eqb_VStr in Hx. now subst.
    + destruct H as [[= H] | (l' & [= <-] & Hin)].
      apply existsb_exists. exists (VStr s). split; [exact Hin|].
      now apply value_eqb_VStr.
  - simpl. split; [discriminate|].
    intros [H | (l & H & _)]; discriminate.
Qed.

(** ** Deleting *)

Lemma remove_first_existsb {A : Type} (p : A -> bool) (l : list A) :
  existsb p l = match remove_first p l with Some _ => true | None => false end.
Proof.
  induction l as [|a l IH]; simpl; [reflexivity|].
  destruct (p a); [reflexivity|]. simpl. rewrite IH.
  now destruct (remove_first p l).
Qed.

(** The run of [delete_mongo_item] on a name the driver accepts. *)
Lemma delete_mongo_item_run (c s : string) (st : mongo) :
  valid_collection_name c = true ->
  delete_mongo_item server_loop c s st =
  (Return
     match outage st with
     | Some e => [("success", VBool false); ("error", VStr (exn_str e))]
     | None =>
         if existsb (matches_query [("name", VStr s)])
                    (lookup_collection c (collections st))
         then [("success", VBool true);
               ("deleted_count", VInt 1);
               ("query", VDict [("name", VStr s)])]
         else [("success", VBool false);
               ("deleted_count", VInt 0);
               ("message", VStr "No item found matching query");
               ("query", VDict [("name", VStr s)])]
     end,
   match outage st with
   | Some e =>
       if reply_lost e then after_delete c [("name", VStr s)] st else st
   | None => after_delete c [("name", VStr s)] st
   end).
Proof.
  intros Hvalid.
  unfold delete_mongo_item. rewrite run_sync_server_loop.
  unfold bind at 1. unfold Database_getitem. rewrite Hvalid.
  unfold ret at 1.
  unfold try_except, bind, delete_one, round_trip, after_delete.
  rewrite remove_first_existsb.
  destruct (outage st) as [e|].
  - destruct (reply_lost e); [|reflexivity].
    now destruct (remove_first _ _).
  - now destruct (remove_first _ _).
Qed.

(** What [delete_one] does to the store: nothing, or the removal of one
    document the query selects; no other collection changes. *)
Lemma after_delete_removes_at_most_one (c : string) (query : dict) (st : mongo) :
  (forall c', c' <> c ->
     lookup_collection c' (collections (after_delete c query st))
     = lookup_collection c' (collections st))
  /\ ((after_delete c query st = st
       /\ existsb (matches_query query)
                  (lookup_collection c (collections st)) = false)
      \/ exists l1 d l2,
           lookup_collection c (collections st) = (l1 ++ d :: l2)%list
           /\ lookup_collection c (collections (after_delete c query st))
              = (l1 ++ l2)%list
           /\ matches_query query d = true).
Proof.
  unfold after_delete.
  destruct (remove_first _ _) as [rest|] eqn:E.
  - destruct (remove_first_Some _ _ _ E)
      as (_ & l1 & d & l2 & Hb & Hr & Hd & _).
    cbn [collections]. split.
    + intros c' Hc'. now apply lookup_store_other.
    + right. exists l1, d, l2. now rewrite lookup_store_same.
  - split; [reflexivity|]. left. split; [reflexivity|].
    now apply remove_first_None.
Qed.

(** C5, where the claim fails: with the driver raising, a delete on a
    collection where no row matches returns the error dict, which has
    neither [deleted_count] nor the not-found message. *)
Lemma delete_mongo_item_error_has_no_count :
  delete_mongo_item server_loop "parts" "widget"
    (mkMongo [] 0 (Some (mkExn OperationFailure "not authorized")))
  = (Return [("success", VBool false); ("error", VStr "not authorized")],
     mkMongo [] 0 (Some (mkExn OperationFailure "not authorized")))
  /\ dict_get "deleted_count"
       [("success", VBool false); ("error", VStr "not authorized")] = None
  /\ dict_get "message"
       [("success", VBool false); ("error", VStr "not authorized")] = None.
Proof. repeat split. Qed.

(** C5 as amended: for a collection name the driver accepts,
    [delete_mongo_item] queries by the field [name] and removes at most one
    document, one the query selects, and touches no other collection.  When
    [delete_one] returns: if no document matches, the store stays as it is
    and the result is the not-found dict with [deleted_count] 0; if one
    matches, exactly one is removed and the result is [success] with
    [deleted_count] 1 and the same query.  When [delete_one] raises, the
    result is the error dict, which carries no count. *)
Theorem delete_mongo_item_deletes_at_most_one :
  forall (collection_name item_name_to_delete : string) (st : mongo),
    valid_collection_name collection_name = true ->
    let query := [("name", VStr item_name_to_delete)] in
    let before := lookup_collection collection_name (collections st) in
    exists r st',
      delete_mongo_item server_loop collection_name item_name_to_delete st
      = (Return r, st')
      /\ (forall c', c' <> collection_name ->
            lookup_collection c' (collections st')
            = lookup_collection c' (collections st))
      /\ let after := lookup_collection collection_name (collections st') in
         (after = before
          \/ exists l1 d l2,
               before = (l1 ++ d :: l2)%list /\ after = (l1 ++ l2)%list
               /\ matches_query query d = true)
         /\ match outage st with
            | Some e =>
                r = [("success", VBool false); ("error", VStr (exn_str e))]
            | None =>
                if existsb (matches_query query) before
                then r = [("success", VBool true);
                          ("deleted_count", VInt 1);
                          ("query", VDict query)]
                     /\ length before = S (length after)
                else r = [("success", VBool false);
                          ("deleted_count", VInt 0);
                          ("message", VStr "No item found matching query");
                          ("query", VDict query)]
                     /\ st' = st
            end.
Proof.
  intros c name st Hvalid query before.
  rewrite (delete_mongo_item_run c name st Hvalid).
  fold query. fold before.
  destruct (after_delete_removes_at_most_one c query st)
    as [Hother Hone].
  fold before in Hone.
  do 2 eexists. split; [reflexivity|].
  destruct (outage st) as [e|].
  - destruct (reply_lost e).
    + split; [exact Hother|]. cbv zeta. split; [|reflexivity].
      destruct Hone as [[-> _] | Hrm]; [now left | now right].
    + split; [reflexivity|]. cbv zeta. split; [now left | reflexivity].
  - split; [exact Hother|]. cbv zeta.
    destruct Hone as [[Hsame Hex] | (l1 & d & l2 & Hb & Ha & Hd)].
    + rewrite Hsame, Hex. split; [now left|]. now split.
    + split; [right; now exists l1, d, l2|].
      assert (Hex : existsb (matches_query query) before = true).
      { rewrite Hb, existsb_app. cbn [existsb]. rewrite Hd.
        apply orb_true_r. }
      rewrite Hex. split; [reflexivity|].
      rewrite Hb, Ha, !length_app. simpl. lia.
Qed.

Lemma delete_mongo_item_deletes_at_most_one_witness :
  exists r st',
    delete_mongo_item server_loop "parts" "widget"
      (mkMongo [("parts", [[("_id", VInt 1); ("name", VStr "widget")]])] 0 None)
    = (Return r, st')
    /\ dict_get "deleted_count" r = Some (VInt 1)
    /\ lookup_collection "parts" (collections st') = [].
Proof.
  destruct (delete_mongo_item_deletes_at_most_one "parts" "widget"
              (mkMongo [("parts", [[("_id", VInt 1); ("name", VStr "widget")]])]
                       0 None) eq_refl)
    as (r & st' & Hrun & _ & _ & Hr & Hlen).
  exists r, st'. split; [exact Hrun|].
  split; [now rewrite Hr|].
  simpl in Hlen. injection Hlen as Hlen. symmetry in Hlen.
  now apply length_zero_iff_nil in Hlen.
Defined.

(** ** Fetching one item *)

Lemma dict_get_set_same (k : string) (v : value) (d : dict) :
  dict_get k (dict_set k v d) = Some v.
Proof.
  induction d as [|[k' v'] d IH]; simpl.
  - now rewrite String.eqb_refl.
  - destruct (String.eqb k k') eqn:E; simpl; rewrite E; [reflexivity | exact IH].
Qed.

Lemma dict_get_set_other (k k' : string) (v : value) (d : dict) :
  k' <> k -> dict_get k' (dict_set k v d) = dict_get k' d.
Proof.
  intros Hne.
  assert (Hk : String.eqb k' k = false) by now apply String.eqb_neq.
  induction d as [|[k0 v0] d IH]; simpl.
  - now rewrite Hk.
  - destruct (String.eqb_spec k k0) as [->|H0]; simpl.
    + now rewrite Hk.
    + now rewrite IH.
Qed.

(** The coercion touches the [_id] field only, and only an [ObjectId]. *)
Lemma stringify_id_fields (doc : dict) :
  dict_get "_id" (stringify_id doc)
  = match dict_get "_id" doc with
    | Some (VObjectId oid) => Some (VStr (ObjectId_str oid))
    | other => other
    end
  /\ forall k, k <> "_id" -> dict_get k (stringify_id doc) = dict_get k doc.
Proof.
  unfold stringify_id.
  destruct (dict_get "_id" doc) as [w|] eqn:E.
  - destruct w; try (split; [exact E | reflexivity]).
    split; [apply dict_get_set_same|].
    intros k Hk. now apply dict_get_set_other.
  - split; [exact E | reflexivity].
Qed.


Lemma matching_document_truthy (s : string) (doc : dict) :
  matches_query [("name", VStr s)] doc = true -> dict_truthy doc = true.
Proof.
  intros H. apply matches_name_query in H.
  destruct doc; [|reflexivity].
  destruct H as [H | (l & H & _)]; discriminate.
Qed.



(** ** Mutating tools *)

Section Tools.

Variable py_repr : value -> string.

(** The run of [add_mongo_item] on a name the driver accepts. *)
Lemma add_mongo_item_run (c : string) (item_data : value) (st : mongo) :
  valid_collection_name c = true ->
  add_mongo_item py_repr server_loop c item_data st =
  match item_data with
  | VDict d =>
      if negb (bson_encodable (VDict d))
      then (Return [("success", VBool false);
                    ("error",
                     VStr "MongoDB can only handle up to 8-byte ints")], st)
      else
        match outage st with
        | Some e =>
            (Return [("success", VBool false); ("error", VStr (exn_str e))],
             if reply_lost e then after_insert c d st else st)
        | None =>
            (Return
               (if id_taken (document_id st d)
                            (lookup_collection c (collections st))
                then [("success", VBool false);
                      ("error", VStr "E11000 duplicate key error")]
                else [("success", VBool true);
                      ("collection", VStr c);
                      ("inserted_id",
                       VStr (py_str py_repr (document_id st d)))]),
             after_insert c d st)
        end
  | _ =>
      (Return [("success", VBool false);
               ("error", VStr "item_data must be a dictionary")], st)
  end.
Proof.
  intros Hvalid.
  unfold add_mongo_item. rewrite run_sync_server_loop.
  unfold bind at 1. unfold Database_getitem. rewrite Hvalid.
  unfold ret at 1.
  destruct item_data as [| b | z | s | oid | l | d]; try reflexivity.
  unfold try_except, bind, insert_one.
  destruct (negb (bson_encodable (VDict d))); [reflexivity|].
  unfold round_trip, after_insert, id_taken, stored_document, document_id.
  destruct (outage st) as [e|].
  - destruct (reply_lost e); [|reflexivity].
    destruct (dict_get "_id" d) as [v|]; cbv zeta iota beta;
      match goal with
      | |- context [ existsb ?f ?l ] => destruct (existsb f l)
      end; reflexivity.
  - destruct (dict_get "_id" d) as [v|]; cbv zeta iota beta;
      match goal with
      | |- context [ existsb ?f ?l ] => destruct (existsb f l)
      end; reflexivity.
Qed.



End Tools.


(** The scenario of the project's description, run on an empty database:
    insert a widget into [parts], fetch it, delete it, delete it again. *)
Example scenario_parts_widget :
  let widget := [("name", VStr "widget"); ("qty", VInt 3)] in
  let oid := "000000000000000000000000" in
  let st0 := mkMongo [] 0 None in
  let st1 := mkMongo [("parts", [("_id", VObjectId 0) :: widget])] 1 None in
  let st2 := mkMongo [("parts", [])] 1 None in
  add_mongo_item (fun _ => "") server_loop "parts" (VDict widget) st0
  = (Return [("success", VBool true);
             ("collection", VStr "parts");
             ("inserted_id", VStr oid)], st1)
  /\ get_mongo_item server_loop "parts" "widget" st1
     = (Return [("found", VBool true);
                ("collection", VStr "parts");
                ("item", VDict (("_id", VStr oid) :: widget))], st1)
  /\ delete_mongo_item server_loop "parts" "widget" st1
     = (Return [("success", VBool true);
                ("deleted_count", VInt 1);
                ("query", VDict [("name", VStr "widget")])], st2)
  /\ delete_mongo_item server_loop "parts" "widget" st2
     = (Return [("success", VBool false);
                ("deleted_count", VInt 0);
                ("message", VStr "No item found matching query");
                ("query", VDict [("name", VStr "widget")])], st2)
  /\ list_mongo_collections server_loop st2 = (Return ["parts"], st2).
Proof. repeat split. Qed.

(** ** Startup *)

Lemma ping_precedes_in_prefix (a b d : event) (rest pre post : list event)
      (ctx : AppContext) :
  (forall c, a <> Yield c) -> (forall c, b <> Yield c) ->
  (a :: b :: AdminCommand "ping" :: d :: rest = pre ++ Yield ctx :: post)%list ->
  In (AdminCommand "ping") pre.
Proof.
  intros Ha Hb H.
  destruct pre as [|x [|y [|z pre]]]; simpl in H.
  - injection H as H _. now elim (Ha ctx).
  - injection H as _ H _. now elim (Hb ctx).
  - injection H as _ _ H _. discriminate.
  - injection H as _ _ H _. subst z. simpl. auto.
Qed.

Section Startup.

Variable MONGODB_URI : string.
Variable A : Type.
Variable serve : AppContext -> M mongo A.

(** The run of the manager when the ping raises. *)
Lemma lifespan_ping_raises (st : mongo) (e : exn) :
  outage st = Some e ->
  app_lifespan_sync MONGODB_URI serve (mkWorld st [])
  = (Raise e,
     mkWorld st
       (startup_lines MONGODB_URI ++
        if is_ConnectionFailure e
        then [Print ("Failed to connect to MongoDB: " ++ exn_str e)]
        else [])%list).
Proof.
  intros Hout.
  unfold app_lifespan_sync, try_except_ConnectionFailure,
    bind, print, emit, on_store, ping, round_trip, raise.
  simpl. rewrite Hout.
  destruct (reply_lost e); now destruct (is_ConnectionFailure e).
Qed.

(** The run of the manager when the ping is answered. *)
Lemma lifespan_ping_answered (st : mongo) :
  outage st = None ->
  app_lifespan_sync MONGODB_URI serve (mkWorld st [])
  = (fst (serve (lifespan_context MONGODB_URI) st),
     mkWorld (snd (serve (lifespan_context MONGODB_URI) st))
       (startup_lines MONGODB_URI ++
        [Print ("Successfully connected to MongoDB, database: '"
                ++ DATABASE_NAME ++ "'.");
         Yield (lifespan_context MONGODB_URI);
         Print "MCP Server (Sync): Lifespan shutting down...";
         ClientClose;
         Print "MongoDB connection closed.";
         Print "MCP Server (Sync): Lifespan shutdown complete."])%list).
Proof.
  intros Hout.
  unfold app_lifespan_sync, try_finally, try_except_ConnectionFailure,
    bind, print, emit, on_store, ping, round_trip, ret.
  cbn. rewrite Hout. cbn. fold (lifespan_context MONGODB_URI).
  now destruct (serve (lifespan_context MONGODB_URI) st) as [r st'].
Qed.

End Startup.

(** C4: the lifespan manager sends [ping] before it yields.  Whatever the
    journal, a [Yield] in it comes after the [ping] command and only when
    the ping was answered.  When the ping raises, the exception, whatever
    its class, leaves [app_lifespan_sync], the store is untouched, the
    server's run is never entered and no context is yielded; when it is
    answered, the context is yielded. *)
Theorem lifespan_pings_before_yield :
  forall (MONGODB_URI : string) (A : Type)
         (serve : AppContext -> M mongo A) (st : mongo),
    exists r w',
      app_lifespan_sync MONGODB_URI serve (mkWorld st []) = (r, w')
      /\ (forall pre ctx post,
             journal w' = (pre ++ Yield ctx :: post)%list ->
             In (AdminCommand "ping") pre /\ outage st = None)
      /\ (forall e,
             outage st = Some e ->
             r = Raise e /\ store w' = st
             /\ forall ctx, ~ In (Yield ctx) (journal w'))
      /\ (outage st = None -> exists ctx, In (Yield ctx) (journal w')).
Proof.
  intros uri A serve st.
  destruct (outage st) as [e|] eqn:Hout.
  - rewrite (lifespan_ping_raises uri A serve st e Hout).
    do 2 eexists. split; [reflexivity|].
    assert (Hno : forall ctx,
               ~ In (Yield ctx)
                    (startup_lines uri ++
                     if is_ConnectionFailure e
                     then [Print ("Failed to connect to MongoDB: "
                                  ++ exn_str e)]
                     else [])%list).
    { intros ctx Hin. destruct (is_ConnectionFailure e); simpl in Hin;
        repeat (destruct Hin as [Hin|Hin]; [discriminate|]); exact Hin. }
    cbn [journal store]. split; [|split].
    + intros pre ctx post H. exfalso. apply (Hno ctx). rewrite H.
      apply in_or_app. right. now left.
    + intros e' [= <-]. now repeat split.
    + discriminate.
  - rewrite (lifespan_ping_answered uri A serve st Hout).
    do 2 eexists. split; [reflexivity|].
    cbn [journal store]. unfold startup_lines. cbn [app].
    split; [|split].
    + intros pre ctx post H. split; [|reflexivity].
      eapply ping_precedes_in_prefix; [| |exact H]; discriminate.
    + discriminate.
    + intros _. exists (lifespan_context uri). do 4 right. now left.
Qed.

(** ** Routing *)

Module RouterFacts.
Import Router.

(** What the four templates parse to. *)
Lemma parse_app_info :
  parse_template "app://info" = [Literal "app:"; Literal ""; Literal "info"].
Proof. reflexivity. Qed.

Lemma parse_item :
  parse_template "mongo://{collection_name}/{item_id}"
  = [Literal "mongo:"; Literal "";
     Placeholder "collection_name"; Placeholder "item_id"].
Proof. reflexivity. Qed.

Lemma parse_list_all :
  parse_template "mongo://{collection_name}/list_all"
  = [Literal "mongo:"; Literal "";
     Placeholder "collection_name"; Literal "list_all"].
Proof. reflexivity. Qed.

Lemma parse_collections :
  parse_template "mongo://collections"
  = [Literal "mongo:"; Literal ""; Literal "collections"].
Proof. reflexivity. Qed.

(** Destructs the segment list of the URI far enough for the literal tests
    to fire and decides each of them. *)
Ltac by_segments u :=
  unfold matches, template_match;
  rewrite ?parse_app_info, ?parse_item, ?parse_list_all, ?parse_collections;
  generalize (split_segments u);
  intros [|a [|b [|c [|d [|e l]]]]]; cbn [match_segments];
  repeat match goal with
    | |- context [ String.eqb ?x ?y ] =>
        destruct (String.eqb_spec x y); subst; cbn [match_segments option_map]
    end;
  try discriminate.

(** The segment lists each template accepts. *)
Lemma matches_app_info (u : string) :
  matches "app://info" u = true ->
  split_segments u = ["app:"; ""; "info"].
Proof. by_segments u. reflexivity. Qed.

Lemma matches_collections (u : string) :
  matches "mongo://collections" u = true ->
  split_segments u = ["mongo:"; ""; "collections"].
Proof. by_segments u. reflexivity. Qed.

Lemma matches_item (u : string) :
  matches "mongo://{collection_name}/{item_id}" u = true ->
  exists c i, split_segments u = ["mongo:"; ""; c; i].
Proof. by_segments u. intros _. now exists c, d. Qed.

Lemma matches_list_all (u : string) :
  matches "mongo://{collection_name}/list_all" u = true ->
  exists c, split_segments u = ["mongo:"; ""; c; "list_all"].
Proof. by_segments u. intros _. now exists c. Qed.

(** Turns the matches assumed so far into shapes of the one segment list and
    closes the goal when two of them disagree. *)
Ltac clash :=
  repeat match goal with
    | H : matches "app://info" _ = true |- _ =>
        apply matches_app_info in H
    | H : matches "mongo://collections" _ = true |- _ =>
        apply matches_collections in H
    | H : matches "mongo://{collection_name}/{item_id}" _ = true |- _ =>
        apply matches_item in H; destruct H as (? & ? & H)
    | H : matches "mongo://{collection_name}/list_all" _ = true |- _ =>
        apply matches_list_all in H; destruct H as (? & H)
    end;
  match goal with
  | H : split_segments ?u = _, H' : split_segments ?u = _ |- _ =>
      rewrite H in H'; discriminate
  end.

(** Every URI the template of [list_all_in_collection] accepts is accepted
    by the template of [get_mongo_item], registered before it. *)
Lemma list_all_template_is_shadowed (u : string) :
  matches "mongo://{collection_name}/list_all" u = true ->
  matches "mongo://{collection_name}/{item_id}" u = true.
Proof. by_segments u; intros; try reflexivity; discriminate. Qed.

(** C1, the behaviour of the code where the claim fails: both templates of
    the shape [mongo://<segment>/<segment>] are registered, and both match
    [mongo://parts/list_all], the first with [item_id] bound to "list_all";
    more than one registered template matches that URI. *)
Lemma item_and_list_all_both_match :
  In ("mongo://{collection_name}/{item_id}", Hget_mongo_item)
     resource_templates
  /\ In ("mongo://{collection_name}/list_all", Hlist_all_in_collection)
        resource_templates
  /\ template_match "mongo://{collection_name}/{item_id}"
                    "mongo://parts/list_all"
     = Some [("collection_name", "parts"); ("item_id", "list_all")]
  /\ template_match "mongo://{collection_name}/list_all"
                    "mongo://parts/list_all"
     = Some [("collection_name", "parts")]
  /\ ~ (length (matching_templates "mongo://parts/list_all") <= 1)%nat.
Proof.
  split; [simpl; tauto|]. split; [simpl; tauto|].
  split; [reflexivity|]. split; [reflexivity|].
  cbv. lia.
Qed.

(** The decorators register the four templates as they come, and the pair
    bound to [get_mongo_item] and [list_all_in_collection] is the only one
    that overlaps: any other two templates match no common URI. *)
Theorem templates_unambiguous_outside_item_and_list_all :
  map fst resource_templates
  = ["app://info";
     "mongo://{collection_name}/{item_id}";
     "mongo://{collection_name}/list_all";
     "mongo://collections"]
  /\ forall uri : string,
       match matching_templates uri with
       | [] | [_] => True
       | [first; second] =>
           first = ("mongo://{collection_name}/{item_id}", Hget_mongo_item)
           /\ second = ("mongo://{collection_name}/list_all",
                        Hlist_all_in_collection)
       | _ => False
       end.
Proof.
  split; [reflexivity|].
  intros uri.
  unfold matching_templates, resource_templates, register.
  cbn [app filter fst].
  destruct (matches "app://info" uri) eqn:Happ;
    destruct (matches "mongo://{collection_name}/{item_id}" uri) eqn:Hitem;
    destruct (matches "mongo://{collection_name}/list_all" uri) eqn:Hlist;
    destruct (matches "mongo://collections" uri) eqn:Hcoll;
    try exact I; try (split; reflexivity); clash.
Qed.

End RouterFacts.

(** * Further properties of the handlers *)

(** ** [get_app_info] *)

(** The result of [get_app_info] for a given status line. *)
Lemma get_app_info_outcome (uri : string) (st : mongo) :
  get_app_info uri server_loop st =
  match outage st with
  | None =>
      (Return [("server_name", VStr mcp_name);
               ("server_version", VStr "1.0.0");
               ("mongodb_uri", VStr uri);
               ("database_name", VStr DATABASE_NAME);
               ("db_status", VStr "Connected")], st)
  | Some e =>
      if is_ConnectionFailure e
      then (Return [("server_name", VStr mcp_name);
                    ("server_version", VStr "1.0.0");
                    ("mongodb_uri", VStr uri);
                    ("database_name", VStr DATABASE_NAME);
                    ("db_status", VStr "Connection Error")], st)
      else (Raise e, st)
  end.
Proof.
  unfold get_app_info, bind. rewrite run_sync_server_loop.
  unfold try_except_ConnectionFailure, bind, ping, round_trip, ret.
  destruct (outage st) as [e|]; [|reflexivity].
  destruct (reply_lost e); now destruct (is_ConnectionFailure e).
Qed.

(** X1: when the ping is answered or fails with an exception of the
    [ConnectionFailure] family, [get_app_info] returns its dict, and the
    [db_status] field says "Connected" exactly when the ping was answered
    and "Connection Error" otherwise. *)
Theorem get_app_info_reports_connection_status :
  forall (uri : string) (st : mongo),
    (forall e, outage st = Some e -> is_ConnectionFailure e = true) ->
    exists r,
      get_app_info uri server_loop st = (Return r, st)
      /\ dict_get "mongodb_uri" r = Some (VStr uri)
      /\ dict_get "database_name" r = Some (VStr "my_mcp_db_sync")
      /\ dict_get "db_status" r
         = Some (VStr (match outage st with
                       | None => "Connected"
                       | Some _ => "Connection Error"
                       end)).
Proof.
  intros uri st Hconn. rewrite get_app_info_outcome.
  destruct (outage st) as [e|].
  - rewrite (Hconn e eq_refl). eexists. now repeat split.
  - eexists. now repeat split.
Qed.

Lemma get_app_info_reports_connection_status_witness :
  (forall e, outage (mkMongo [] 0 (Some (mkExn AutoReconnect "gone"))) = Some e ->
             is_ConnectionFailure e = true)
  /\ exists r,
       get_app_info "mongodb://localhost:27017" server_loop
                    (mkMongo [] 0 (Some (mkExn AutoReconnect "gone")))
       = (Return r, mkMongo [] 0 (Some (mkExn AutoReconnect "gone")))
       /\ dict_get "db_status" r = Some (VStr "Connection Error").
Proof.
  assert (H : forall e,
             outage (mkMongo [] 0 (Some (mkExn AutoReconnect "gone"))) = Some e ->
             is_ConnectionFailure e = true).
  { simpl. intros e [= <-]. reflexivity. }
  split; [exact H|].
  destruct (get_app_info_reports_connection_status
              "mongodb://localhost:27017"
              (mkMongo [] 0 (Some (mkExn AutoReconnect "gone"))) H)
    as (r & Hr & _ & _ & Hs).
  exists r. split; [exact Hr | exact Hs].
Defined.

(** X2: an exception of the ping that is not of the [ConnectionFailure]
    family is not caught by [check_connection_sync]: it leaves
    [get_app_info]. *)
Theorem get_app_info_other_exceptions_escape :
  forall (uri : string) (st : mongo) (e : exn),
    outage st = Some e ->
    is_ConnectionFailure e = false ->
    get_app_info uri server_loop st = (Raise e, st).
Proof.
  intros uri st e Hout Hclass.
  rewrite get_app_info_outcome, Hout, Hclass. reflexivity.
Qed.

Lemma get_app_info_other_exceptions_escape_witness :
  get_app_info "mongodb://localhost:27017" server_loop
               (mkMongo [] 0 (Some (mkExn OperationFailure "not authorized")))
  = (Raise (mkExn OperationFailure "not authorized"),
     mkMongo [] 0 (Some (mkExn OperationFailure "not authorized"))).
Proof.
  apply (get_app_info_other_exceptions_escape
           "mongodb://localhost:27017"
           (mkMongo [] 0 (Some (mkExn OperationFailure "not authorized")))
           (mkExn OperationFailure "not authorized"));
    reflexivity.
Defined.

(** ** What the resources never do *)

Lemma run_sync_keeps_store {A : Type} (sched : scheduler) (func : M mongo A)
      (st : mongo) :
  snd (func st) = st -> snd (run_sync sched func st) = st.
Proof.
  intros H. destruct (run_sync_cases sched func st) as [[_ ->] | ->];
    [reflexivity | exact H].
Qed.

Lemma bind_keeps_store {A B : Type} (c : M mongo A) (k : A -> M mongo B)
      (st : mongo) :
  snd (c st) = st -> (forall a s, snd (k a s) = s) -> snd (bind c k st) = st.
Proof.
  unfold bind. destruct (c st) as [[a|e] st']; simpl; intros ->; auto.
Qed.

(** X3: the four resource handlers are read-only: whether they return or
    raise, and whatever the calling context, the store is as before. *)
Theorem resources_leave_store_untouched :
  forall (uri : string) (sched : scheduler)
         (collection_name item_id : string) (st : mongo),
    snd (get_app_info uri sched st) = st
    /\ snd (get_mongo_item sched collection_name item_id st) = st
    /\ snd (list_all_in_collection sched collection_name st) = st
    /\ snd (list_mongo_collections sched st) = st.
Proof.
  intros uri sched c i st. repeat split.
  - unfold get_app_info. apply bind_keeps_store; [|reflexivity].
    apply run_sync_keeps_store.
    unfold try_except_ConnectionFailure, bind, ping, round_trip, ret.
    destruct (outage st) as [e|]; [|reflexivity].
    destruct (reply_lost e); now destruct (is_ConnectionFailure e).
  - unfold get_mongo_item. apply run_sync_keeps_store.
    unfold bind, find_one, round_trip, ret.
    destruct (outage st) as [e|]; [now destruct (reply_lost e)|].
    destruct (find _ _) as [d|]; [|reflexivity].
    now destruct (dict_truthy d).
  - rewrite list_all_in_collection_outcome.
    destruct sched; [|reflexivity]. now destruct (outage st).
  - unfold list_mongo_collections. apply run_sync_keeps_store.
    unfold try_except, list_collection_names, round_trip, ret.
    destruct (outage st) as [e|]; [now destruct (reply_lost e) | reflexivity].
Qed.

(** X4: with no running event loop every handler raises the bridge's
    [RuntimeError] and touches nothing; the [try] blocks of the tools sit
    inside [db_call_sync] and do not cover the bridge. *)
Theorem handlers_raise_without_running_loop :
  forall (uri : string) (py_repr : value -> string)
         (collection_name item : string) (item_data : value) (st : mongo),
    let stop := (Raise (mkExn RuntimeError "no running event loop"), st) in
    get_mongo_item None collection_name item st = stop
    /\ list_all_in_collection None collection_name st = stop
    /\ list_mongo_collections None st
       = (Raise (mkExn RuntimeError "no running event loop"), st)
    /\ add_mongo_item py_repr None collection_name item_data st = stop
    /\ delete_mongo_item None collection_name item st = stop
    /\ get_app_info uri None st = stop.
Proof. intros. repeat split. Qed.

(** ** [add_mongo_item] *)

Lemma dict_get_remove_other (k k' : string) (d : dict) :
  k <> k' -> dict_get k (dict_remove k' d) = dict_get k d.
Proof.
  intros Hne. induction d as [|[k0 v0] d IH]; simpl; [reflexivity|].
  destruct (String.eqb_spec k' k0) as [->|H0]; simpl.
  - apply String.eqb_neq in Hne. now rewrite Hne.
  - now rewrite IH.
Qed.

Lemma stored_document_keeps_fields (st : mongo) (d : dict) (k : string) :
  k <> "_id" -> dict_get k (stored_document st d) = dict_get k d.
Proof.
  intros Hk. unfold stored_document. simpl.
  assert (Hb : String.eqb k "_id" = false) by now apply String.eqb_neq.
  rewrite Hb. now apply dict_get_remove_other.
Qed.

Section AddItem.

Variable py_repr : value -> string.

(** A tool that returned had a collection name the driver accepts. *)
Lemma add_mongo_item_returned_valid (c : string) (data : value)
      (st st' : mongo) (r : dict) :
  add_mongo_item py_repr server_loop c data st = (Return r, st') ->
  valid_collection_name c = true.
Proof.
  unfold add_mongo_item. rewrite run_sync_server_loop.
  unfold bind at 1. unfold Database_getitem.
  destruct (valid_collection_name c); [reflexivity | discriminate].
Qed.

(** What a successful [add_mongo_item] did. *)
Lemma add_mongo_item_success (c : string) (data : value)
      (st st' : mongo) (r : dict) :
  add_mongo_item py_repr server_loop c data st = (Return r, st') ->
  dict_get "success" r = Some (VBool true) ->
  exists d,
    data = VDict d
    /\ outage st = None
    /\ r = [("success", VBool true);
            ("collection", VStr c);
            ("inserted_id", VStr (py_str py_repr (document_id st d)))]
    /\ st' = mkMongo (store_collection c
                        (lookup_collection c (collections st)
                         ++ [stored_document st d])%list
                        (collections st))
                     (match dict_get "_id" d with
                      | Some _ => oid_counter st
                      | None => N.succ (oid_counter st)
                      end)
                     None.
Proof.
  intros Hrun Hok.
  pose proof (add_mongo_item_returned_valid _ _ _ _ _ Hrun) as Hvalid.
  rewrite (add_mongo_item_run py_repr c data st Hvalid) in Hrun.
  destruct data as [| b | z | s | oid | l | d];
    try (injection Hrun as <- _; discriminate).
  destruct (negb (bson_encodable (VDict d)));
    [injection Hrun as <- _; discriminate|].
  unfold after_insert in Hrun.
  destruct (outage st) as [e|];
    [injection Hrun as <- _; discriminate|].
  destruct (id_taken _ _); [injection Hrun as <- _; discriminate|].
  injection Hrun as <- <-. exists d. now repeat split.
Qed.

(** X5: for a collection name the driver accepts, a payload that is not a
    dict is refused before the driver is called: the error result comes
    back and the store is untouched, also while the driver is failing. *)
Theorem add_mongo_item_rejects_non_dict :
  forall (collection_name : string) (item_data : value) (st : mongo),
    valid_collection_name collection_name = true ->
    (forall d, item_data <> VDict d) ->
    add_mongo_item py_repr server_loop collection_name item_data st
    = (Return [("success", VBool false);
               ("error", VStr "item_data must be a dictionary")], st).
Proof.
  intros c data st Hvalid Hnot.
  rewrite (add_mongo_item_run py_repr c data st Hvalid).
  destruct data; try reflexivity. now elim (Hnot d).
Qed.

(** X7: a successful [add_mongo_item] appends exactly one document to the
    end of the collection and leaves the other collections as they were.
    The stored document has the [_id] of the payload, or a fresh ObjectId
    when it brought none, and every other field of the payload;
    [inserted_id] is the string of that [_id]. *)
Theorem add_mongo_item_success_appends :
  forall (collection_name : string) (d : dict) (st st' : mongo) (r : dict),
    add_mongo_item py_repr server_loop collection_name (VDict d) st
    = (Return r, st') ->
    dict_get "success" r = Some (VBool true) ->
    exists stored,
      lookup_collection collection_name (collections st')
      = (lookup_collection collection_name (collections st) ++ [stored])%list
      /\ (forall c', c' <> collection_name ->
            lookup_collection c' (collections st')
            = lookup_collection c' (collections st))
      /\ dict_get "_id" stored = Some (document_id st d)
      /\ (forall k, k <> "_id" -> dict_get k stored = dict_get k d)
      /\ dict_get "inserted_id" r
         = Some (VStr (py_str py_repr (document_id st d))).
Proof.
  intros c d st st' r Hrun Hok.
  destruct (add_mongo_item_success _ _ _ _ _ Hrun Hok)
    as (d' & [= <-] & _ & -> & ->).
  exists (stored_document st d). cbn [collections].
  split; [apply lookup_store_same|].
  split; [intros c' Hc'; now apply lookup_store_other|].
  split; [reflexivity|].
  split; [intros k Hk; now apply stored_document_keeps_fields | reflexivity].
Qed.

End AddItem.

Lemma add_mongo_item_rejects_non_dict_witness :
  add_mongo_item (fun _ => "") server_loop "parts" (VStr "widget")
                 (mkMongo [] 0 (Some (mkExn AutoReconnect "gone")))
  = (Return [("success", VBool false);
             ("error", VStr "item_data must be a dictionary")],
     mkMongo [] 0 (Some (mkExn AutoReconnect "gone"))).
Proof.
  apply (add_mongo_item_rejects_non_dict (fun _ => "") "parts"
           (VStr "widget") (mkMongo [] 0 (Some (mkExn AutoReconnect "gone"))));
    [reflexivity | discriminate].
Defined.

Lemma add_mongo_item_success_appends_witness :
  exists stored,
    lookup_collection "parts"
      (collections
         (mkMongo [("parts", [[("_id", VInt 7); ("name", VStr "widget")]])]
                  0 None))
    = ([] ++ [stored])%list
    /\ dict_get "_id" stored = Some (VInt 7)
    /\ dict_get "name" stored = Some (VStr "widget").
Proof.
  destruct (add_mongo_item_success_appends (fun _ => "") "parts"
              [("name", VStr "widget"); ("_id", VInt 7)] (mkMongo [] 0 None)
              (mkMongo [("parts", [[("_id", VInt 7); ("name", VStr "widget")]])]
                       0 None)
              [("success", VBool true);
               ("collection", VStr "parts");
               ("inserted_id", VStr "7")] eq_refl eq_refl)
    as (stored & Hl & _ & Hid & Hk & _).
  exists stored. split; [exact Hl|]. split; [exact Hid|].
  now rewrite Hk.
Defined.

(** ** Insert, fetch and delete together *)

Lemma get_mongo_item_outcome (c s : string) (st : mongo) :
  outage st = None ->
  get_mongo_item server_loop c s st =
  (Return
     match find (matches_query [("name", VStr s)])
                (lookup_collection c (collections st)) with
     | Some d => [("found", VBool true);
                  ("collection", VStr c);
                  ("item", VDict (stringify_id d))]
     | None => [("found", VBool false);
                ("collection", VStr c);
                ("query", VDict [("name", VStr s)]);
                ("message", VStr "Item not found")]
     end, st).
Proof.
  intros Hout.
  unfold get_mongo_item. rewrite run_sync_server_loop.
  unfold bind, find_one, round_trip, ret. rewrite Hout.
  destruct (find _ _) as [d|] eqn:E; [|reflexivity].
  apply find_some in E. destruct E as [_ Hd].
  now rewrite (matching_document_truthy _ _ Hd).
Qed.

Lemma find_app_last {A : Type} (p : A -> bool) (l : list A) (x : A) :
  existsb p l = false -> p x = true -> find p (l ++ [x]) = Some x.
Proof.
  induction l as [|a l IH]; simpl; intros Hl Hx.
  - now rewrite Hx.
  - apply orb_false_iff in Hl. destruct Hl as [-> Hl]. now apply IH.
Qed.

Lemma find_is_some_iff_existsb {A : Type} (p : A -> bool) (l : list A) :
  existsb p l = match find p l with Some _ => true | None => false end.
Proof.
  induction l as [|a l IH]; simpl; [reflexivity|].
  now destruct (p a).
Qed.

Lemma stored_document_matches_name (st : mongo) (d : dict) (s : string) :
  dict_get "name" d = Some (VStr s) ->
  matches_query [("name", VStr s)] (stored_document st d) = true.
Proof.
  intros Hname. apply matches_name_query. left.
  rewrite stored_document_keeps_fields; [exact Hname | discriminate].
Qed.

Section RoundTrip.

Variable py_repr : value -> string.

(** X8: round trip.  After a successful [add_mongo_item] of a dict whose
    [name] is the string [s], into a collection that held no document of
    that name, [get_mongo_item] for [s] finds the document just stored: the
    item has every field of the payload other than [_id] as it was given,
    and its [_id] is the stored one, in string form when it is an
    ObjectId. *)
Theorem add_then_get_round_trip :
  forall (collection_name s : string) (d : dict) (st st' : mongo) (r : dict),
    add_mongo_item py_repr server_loop collection_name (VDict d) st
    = (Return r, st') ->
    dict_get "success" r = Some (VBool true) ->
    dict_get "name" d = Some (VStr s) ->
    existsb (matches_query [("name", VStr s)])
            (lookup_collection collection_name (collections st)) = false ->
    exists item,
      get_mongo_item server_loop collection_name s st'
      = (Return [("found", VBool true);
                 ("collection", VStr collection_name);
                 ("item", VDict item)], st')
      /\ (forall k, k <> "_id" -> dict_get k item = dict_get k d)
      /\ dict_get "_id" item
         = Some (match document_id st d with
                 | VObjectId oid => VStr (ObjectId_str oid)
                 | other => other
                 end).
Proof.
  intros c s d st st' r Hrun Hok Hname Hfresh.
  destruct (add_mongo_item_success _ _ _ _ _ _ Hrun Hok)
    as (d' & [= <-] & _ & _ & ->).
  exists (stringify_id (stored_document st d)).
  rewrite get_mongo_item_outcome by reflexivity.
  cbn [collections]. rewrite lookup_store_same.
  rewrite (find_app_last _ _ _ Hfresh
             (stored_document_matches_name st d s Hname)).
  split; [reflexivity|].
  destruct (stringify_id_fields (stored_document st d)) as [Hid Hother].
  split.
  - intros k Hk. rewrite (Hother k Hk). now apply stored_document_keeps_fields.
  - rewrite Hid. unfold stored_document. simpl.
    now destruct (document_id st d).
Qed.

(** X9: whatever the collection held, after a successful [add_mongo_item]
    of a dict whose [name] is the string [s], an item of that name is found
    by [get_mongo_item] and [delete_mongo_item] for [s] deletes one
    document. *)
Theorem add_then_name_is_known :
  forall (collection_name s : string) (d : dict) (st st' : mongo) (r : dict),
    add_mongo_item py_repr server_loop collection_name (VDict d) st
    = (Return r, st') ->
    dict_get "success" r = Some (VBool true) ->
    dict_get "name" d = Some (VStr s) ->
    (exists item,
        get_mongo_item server_loop collection_name s st'
        = (Return [("found", VBool true);
                   ("collection", VStr collection_name);
                   ("item", VDict item)], st'))
    /\ (exists st'',
           delete_mongo_item server_loop collection_name s st'
           = (Return [("success", VBool true);
                      ("deleted_count", VInt 1);
                      ("query", VDict [("name", VStr s)])], st'')).
Proof.
  intros c s d st st' r Hrun Hok Hname.
  pose proof (add_mongo_item_returned_valid _ _ _ _ _ _ Hrun) as Hvalid.
  destruct (add_mongo_item_success _ _ _ _ _ _ Hrun Hok)
    as (d' & [= <-] & _ & _ & ->).
  assert (Hex : existsb (matches_query [("name", VStr s)])
                  (lookup_collection c (collections st)
                   ++ [stored_document st d]) = true).
  { rewrite existsb_app. apply orb_true_iff. right. cbn [existsb].
    now rewrite (stored_document_matches_name st d s Hname). }
  split.
  - rewrite get_mongo_item_outcome by reflexivity.
    cbn [collections]. rewrite lookup_store_same.
    rewrite find_is_some_iff_existsb in Hex.
    destruct (find _ _) as [x|]; [|discriminate].
    now eexists.
  - rewrite (delete_mongo_item_run c s _ Hvalid).
    cbn [outage collections]. rewrite lookup_store_same, Hex.
    now eexists.
Qed.

End RoundTrip.

Lemma add_then_get_round_trip_witness :
  exists item,
    get_mongo_item server_loop "parts" "widget"
      (mkMongo [("parts", [[("_id", VObjectId 0); ("name", VStr "widget");
                            ("qty", VInt 3)]])] 1 None)
    = (Return [("found", VBool true);
               ("collection", VStr "parts");
               ("item", VDict item)],
       mkMongo [("parts", [[("_id", VObjectId 0); ("name", VStr "widget");
                            ("qty", VInt 3)]])] 1 None)
    /\ (forall k, k <> "_id" ->
          dict_get k item
          = dict_get k [("name", VStr "widget"); ("qty", VInt 3)])
    /\ dict_get "_id" item = Some (VStr "000000000000000000000000").
Proof.
  apply (add_then_get_round_trip (fun _ => "") "parts" "widget"
           [("name", VStr "widget"); ("qty", VInt 3)]
           (mkMongo [] 0 None)
           (mkMongo [("parts", [[("_id", VObjectId 0); ("name", VStr "widget");
                                 ("qty", VInt 3)]])] 1 None)
           [("success", VBool true);
            ("collection", VStr "parts");
            ("inserted_id", VStr "000000000000000000000000")]);
    reflexivity.
Defined.

Lemma add_then_name_is_known_witness :
  exists st'',
    delete_mongo_item server_loop "parts" "widget"
      (mkMongo [("parts", [[("_id", VInt 1); ("name", VStr "widget")];
                           [("_id", VInt 2); ("name", VStr "widget")]])] 0 None)
    = (Return [("success", VBool true);
               ("deleted_count", VInt 1);
               ("query", VDict [("name", VStr "widget")])], st'').
Proof.
  apply (add_then_name_is_known (fun _ => "") "parts" "widget"
           [("_id", VInt 2); ("name", VStr "widget")]
           (mkMongo [("parts", [[("_id", VInt 1); ("name", VStr "widget")]])]
                    0 None)
           (mkMongo [("parts", [[("_id", VInt 1); ("name", VStr "widget")];
                                [("_id", VInt 2); ("name", VStr "widget")]])]
                    0 None)
           [("success", VBool true);
            ("collection", VStr "parts");
            ("inserted_id", VStr "2")]);
    reflexivity.
Defined.

(** X10: fetch and delete agree on what exists.  For a collection name
    the driver accepts and with the driver answering, [get_mongo_item]
    reports [found] for a name exactly when [delete_mongo_item] for that
    name reports [success]. *)
Theorem get_found_iff_delete_succeeds :
  forall (cs : list (string * list dict)) (n : N)
         (collection_name s : string),
    valid_collection_name collection_name = true ->
    exists (b : bool) (rg rd : dict) (st' : mongo),
      get_mongo_item server_loop collection_name s (mkMongo cs n None)
      = (Return rg, mkMongo cs n None)
      /\ delete_mongo_item server_loop collection_name s (mkMongo cs n None)
         = (Return rd, st')
      /\ dict_get "found" rg = Some (VBool b)
      /\ dict_get "success" rd = Some (VBool b).
Proof.
  intros cs n c s Hvalid.
  rewrite get_mongo_item_outcome by reflexivity.
  rewrite (delete_mongo_item_run c s _ Hvalid).
  cbn [collections outage]. rewrite find_is_some_iff_existsb.
  destruct (find _ _) as [x|].
  - exists true. do 3 eexists. now repeat split.
  - exists false. do 3 eexists. now repeat split.
Qed.

Lemma get_found_iff_delete_succeeds_witness :
  exists (b : bool) (rg rd : dict) (st' : mongo),
    get_mongo_item server_loop "parts" "widget" (mkMongo [] 0 None)
    = (Return rg, mkMongo [] 0 None)
    /\ delete_mongo_item server_loop "parts" "widget" (mkMongo [] 0 None)
       = (Return rd, st')
    /\ dict_get "found" rg = Some (VBool b)
    /\ dict_get "success" rd = Some (VBool b).
Proof.
  exact (get_found_iff_delete_succeeds [] 0 "parts" "widget" eq_refl).
Defined.

Lemma existsb_false_filter_nil {A : Type} (p : A -> bool) (l : list A) :
  existsb p l = false -> filter p l = [].
Proof.
  induction l as [|a l IH]; simpl; [reflexivity|].
  destruct (p a); [discriminate|]. exact IH.
Qed.

Lemma count_after_delete (c : string) (query : dict) (st : mongo) :
  count_matching query
    (lookup_collection c (collections (after_delete c query st)))
  = pred (count_matching query (lookup_collection c (collections st))).
Proof.
  unfold count_matching.
  destruct (after_delete_removes_at_most_one c query st)
    as [_ [[-> Hex] | (l1 & d & l2 & -> & -> & Hd)]].
  - now rewrite (existsb_false_filter_nil _ _ Hex).
  - rewrite !filter_app, !length_app. cbn [filter]. rewrite Hd.
    simpl. lia.
Qed.

(** X11: each call of [delete_mongo_item] takes one document of the name
    away.  For a collection name the driver accepts and with the driver
    answering, the number of documents of that name in the collection after
    the call is the number before less one (and stays 0 at 0), so [k]
    documents of one name need [k] calls. *)
Theorem delete_mongo_item_decrements_matches :
  forall (cs : list (string * list dict)) (n : N)
         (collection_name s : string),
    valid_collection_name collection_name = true ->
    count_matching [("name", VStr s)]
      (lookup_collection collection_name
         (collections
            (snd (delete_mongo_item server_loop collection_name s
                                    (mkMongo cs n None)))))
    = pred (count_matching [("name", VStr s)]
              (lookup_collection collection_name cs)).
Proof.
  intros cs n c s Hvalid.
  rewrite (delete_mongo_item_run c s _ Hvalid). cbn [snd outage].
  apply (count_after_delete c [("name", VStr s)] (mkMongo cs n None)).
Qed.

Lemma delete_mongo_item_decrements_matches_witness :
  count_matching [("name", VStr "widget")]
    (lookup_collection "parts"
       (collections
          (snd (delete_mongo_item server_loop "parts" "widget"
                  (mkMongo [("parts", [[("name", VStr "widget")];
                                       [("name", VStr "widget")]])] 0 None)))))
  = pred (count_matching [("name", VStr "widget")]
            (lookup_collection "parts"
               [("parts", [[("name", VStr "widget")];
                           [("name", VStr "widget")]])])).
Proof.
  exact (delete_mongo_item_decrements_matches
           [("parts", [[("name", VStr "widget")]; [("name", VStr "widget")]])]
           0 "parts" "widget" eq_refl).
Defined.

Lemma filter_nil_find_none {A : Type} (p : A -> bool) (l : list A) :
  filter p l = [] -> find p l = None.
Proof.
  induction l as [|a l IH]; simpl; [reflexivity|].
  destruct (p a); [discriminate | exact IH].
Qed.

(** X12: deleting then fetching.  For a collection name the driver accepts:
    when the collection holds at most one document of the name, after
    [delete_mongo_item] for that name [get_mongo_item] reports it not
    found.  (With several documents of the name one call leaves the others
    in place.) *)
Theorem delete_then_get_not_found :
  forall (cs : list (string * list dict)) (n : N)
         (collection_name s : string),
    valid_collection_name collection_name = true ->
    (count_matching [("name", VStr s)]
       (lookup_collection collection_name cs) <= 1)%nat ->
    let st' := snd (delete_mongo_item server_loop collection_name s
                                      (mkMongo cs n None)) in
    get_mongo_item server_loop collection_name s st'
    = (Return [("found", VBool false);
               ("collection", VStr collection_name);
               ("query", VDict [("name", VStr s)]);
               ("message", VStr "Item not found")], st').
Proof.
  intros cs n c s Hvalid Hone st'.
  assert (Hst : st' = after_delete c [("name", VStr s)] (mkMongo cs n None)).
  { subst st'. now rewrite (delete_mongo_item_run c s _ Hvalid). }
  assert (Hout : outage st' = None).
  { rewrite Hst. unfold after_delete. now destruct (remove_first _ _). }
  rewrite get_mongo_item_outcome by exact Hout.
  pose proof (count_after_delete c [("name", VStr s)] (mkMongo cs n None))
    as Hcount.
  rewrite <- Hst in Hcount. cbn [collections] in Hcount.
  unfold count_matching in Hcount, Hone.
  assert (Hnil : filter (matches_query [("name", VStr s)])
                   (lookup_collection c (collections st')) = []).
  { apply length_zero_iff_nil. lia. }
  now rewrite (filter_nil_find_none _ _ Hnil).
Qed.

Lemma delete_then_get_not_found_witness :
  get_mongo_item server_loop "parts" "widget" (mkMongo [("parts", [])] 1 None)
  = (Return [("found", VBool false);
             ("collection", VStr "parts");
             ("query", VDict [("name", VStr "widget")]);
             ("message", VStr "Item not found")],
     mkMongo [("parts", [])] 1 None).
Proof.
  assert (H : (count_matching [("name", VStr "widget")]
                 (lookup_collection "parts"
                    [("parts", [[("_id", VObjectId 0);
                                 ("name", VStr "widget")]])]) <= 1)%nat)
    by (vm_compute; lia).
  exact (delete_then_get_not_found
           [("parts", [[("_id", VObjectId 0); ("name", VStr "widget")]])]
           1 "parts" "widget" eq_refl H).
Defined.

(** ** [list_all_in_collection] *)





(** X15: no item returned by [list_all_in_collection] has an ObjectId for
    [_id], in any state and calling context. *)
Theorem list_all_in_collection_no_ObjectId :
  forall (sched : scheduler) (collection_name : string) (st st' : mongo)
         (r : dict) (items : list value) (item : dict) (oid : N),
    list_all_in_collection sched collection_name st = (Return r, st') ->
    dict_get "items" r = Some (VList items) ->
    In (VDict item) items ->
    dict_get "_id" item <> Some (VObjectId oid).
Proof.
  intros sched c st st' r items item oid Hrun Hitems Hin.
  rewrite list_all_in_collection_outcome in Hrun.
  destruct sched as [loop|]; [|discriminate].
  destruct (outage st) as [e|]; [discriminate|].
  injection Hrun as <- _. injection Hitems as <-.
  apply in_map_iff in Hin. destruct Hin as (d' & [= <-] & Hin).
  apply in_map_iff in Hin. destruct Hin as (d & <- & _).
  destruct (stringify_id_fields d) as [-> _].
  destruct (dict_get "_id" d) as [[]|]; discriminate.
Qed.

Lemma list_all_in_collection_no_ObjectId_witness :
  dict_get "_id" [("_id", VStr "000000000000000000000000");
                  ("name", VStr "widget")]
  <> Some (VObjectId 0).
Proof.
  apply (list_all_in_collection_no_ObjectId server_loop "parts"
           (mkMongo [("parts", [[("_id", VObjectId 0);
                                 ("name", VStr "widget")]])] 1 None)
           (mkMongo [("parts", [[("_id", VObjectId 0);
                                 ("name", VStr "widget")]])] 1 None)
           [("collection", VStr "parts");
            ("count", VInt 1);
            ("items", VList [VDict [("_id", VStr "000000000000000000000000");
                                    ("name", VStr "widget")]])]
           [VDict [("_id", VStr "000000000000000000000000");
                   ("name", VStr "widget")]]);
    [reflexivity | reflexivity | simpl; left; reflexivity].
Defined.

(** ** Collections coming and staying *)

Lemma store_collection_names (c : string) (docs : list dict)
      (cs : list (string * list dict)) :
  In c (map fst (store_collection c docs cs))
  /\ incl (map fst cs) (map fst (store_collection c docs cs)).
Proof.
  induction cs as [|[n old] cs [IHin IHincl]]; simpl.
  - split; [now left | intros x []].
  - destruct (String.eqb_spec c n) as [->|Hn]; simpl.
    + split; [now left | apply incl_refl].
    + split; [now right|].
      intros x [<-|Hx]; [now left | right; now apply IHincl].
Qed.

Lemma store_collection_existing (c : string) (docs : list dict)
      (cs : list (string * list dict)) :
  lookup_collection c cs <> [] ->
  map fst (store_collection c docs cs) = map fst cs.
Proof.
  induction cs as [|[n old] cs IH]; simpl; intros Hne.
  - now elim Hne.
  - destruct (String.eqb c n); simpl; [reflexivity|].
    now rewrite IH.
Qed.

(** X16: a successful [add_mongo_item] makes its collection exist: after it
    [list_mongo_collections] lists the collection, along with every
    collection that existed before. *)
Theorem add_mongo_item_materialises_collection :
  forall (py_repr : value -> string) (collection_name : string)
         (item_data : value) (st st' : mongo) (r : dict),
    add_mongo_item py_repr server_loop collection_name item_data st
    = (Return r, st') ->
    dict_get "success" r = Some (VBool true) ->
    exists names,
      list_mongo_collections server_loop st' = (Return names, st')
      /\ In collection_name names
      /\ incl (map fst (collections st)) names.
Proof.
  intros py_repr c data st st' r Hrun Hok.
  destruct (add_mongo_item_success _ _ _ _ _ _ Hrun Hok)
    as (d & _ & _ & _ & ->).
  eexists. split; [reflexivity|]. cbn [collections].
  apply store_collection_names.
Qed.

Lemma add_mongo_item_materialises_collection_witness :
  exists names,
    list_mongo_collections server_loop
      (mkMongo [("parts", [[("_id", VObjectId 0); ("name", VStr "widget")]])]
               1 None)
    = (Return names,
       mkMongo [("parts", [[("_id", VObjectId 0); ("name", VStr "widget")]])]
               1 None)
    /\ In "parts" names
    /\ incl (map fst (collections (mkMongo [] 0 None))) names.
Proof.
  apply (add_mongo_item_materialises_collection (fun _ => "") "parts"
           (VDict [("name", VStr "widget")]) (mkMongo [] 0 None)
           (mkMongo [("parts", [[("_id", VObjectId 0);
                                 ("name", VStr "widget")]])] 1 None)
           [("success", VBool true);
            ("collection", VStr "parts");
            ("inserted_id", VStr "000000000000000000000000")]);
    reflexivity.
Defined.

(** X17: [delete_mongo_item] never makes a collection disappear: the names
    [list_mongo_collections] returns are the same before and after the
    call, also when the last document of the collection was deleted. *)
Theorem delete_mongo_item_keeps_collections :
  forall (collection_name s : string) (st : mongo),
    fst (list_mongo_collections server_loop
           (snd (delete_mongo_item server_loop collection_name s st)))
    = fst (list_mongo_collections server_loop st).
Proof.
  intros c s st.
  assert (Hlist : forall st0,
             fst (list_mongo_collections server_loop st0)
             = Return match outage st0 with
                      | Some e => ["Error listing collections: " ++ exn_str e]
                      | None => map fst (collections st0)
                      end).
  { intros st0. unfold list_mongo_collections.
    rewrite run_sync_server_loop.
    unfold try_except, list_collection_names, round_trip.
    destruct (outage st0) as [e|]; [now destruct (reply_lost e) | reflexivity]. }
  assert (Hframe : outage (after_delete c [("name", VStr s)] st) = outage st
                   /\ map fst (collections
                                 (after_delete c [("name", VStr s)] st))
                      = map fst (collections st)).
  { unfold after_delete.
    destruct (remove_first _ _) as [rest|] eqn:E; [|now split].
    cbn [outage collections]. split; [reflexivity|].
    apply store_collection_existing.
    intros Hnil. rewrite Hnil in E. discriminate. }
  destruct Hframe as [Hout Hnames].
  rewrite !Hlist.
  destruct (valid_collection_name c) eqn:Hvalid.
  - rewrite (delete_mongo_item_run c s st Hvalid). cbn [snd].
    destruct (outage st) as [e|] eqn:Houtage.
    + destruct (reply_lost e); [now rewrite Hout | now rewrite Houtage].
    + now rewrite Hout, Hnames.
  - unfold delete_mongo_item. rewrite run_sync_server_loop.
    unfold bind at 1. unfold Database_getitem. now rewrite Hvalid.
Qed.

(** ** Shutdown *)

(** X18: once the ping is answered, the outcome of the server's run, a
    return or an exception, is the outcome of the lifespan manager; the
    store is as the run left it; and the client is closed exactly once,
    after the yield, on both exits. *)
Theorem lifespan_closes_once_after_serving :
  forall (MONGODB_URI : string) (A : Type)
         (serve : AppContext -> M mongo A)
         (cs : list (string * list dict)) (n : N),
    let st := mkMongo cs n None in
    let ctx := lifespan_context MONGODB_URI in
    exists w' before after,
      app_lifespan_sync MONGODB_URI serve (mkWorld st [])
      = (fst (serve ctx st), w')
      /\ store w' = snd (serve ctx st)
      /\ journal w' = (before ++ Yield ctx :: after)%list
      /\ filter is_ClientClose before = []
      /\ filter is_ClientClose after = [ClientClose].
Proof.
  intros uri A serve cs n st ctx.
  rewrite (lifespan_ping_answered uri A serve st eq_refl).
  exists (mkWorld (snd (serve ctx st))
            (startup_lines uri ++
             [Print ("Successfully connected to MongoDB, database: '"
                     ++ DATABASE_NAME ++ "'.");
              Yield ctx;
              Print "MCP Server (Sync): Lifespan shutting down...";
              ClientClose;
              Print "MongoDB connection closed.";
              Print "MCP Server (Sync): Lifespan shutdown complete."])%list).
  exists (startup_lines uri ++
          [Print ("Successfully connected to MongoDB, database: '"
                  ++ DATABASE_NAME ++ "'.")])%list.
  exists [Print "MCP Server (Sync): Lifespan shutting down...";
          ClientClose;
          Print "MongoDB connection closed.";
          Print "MCP Server (Sync): Lifespan shutdown complete."].
  repeat split.
Qed.

(** X19: when the ping raises, the client built at startup is not closed:
    the exception leaves before the [try ... finally] is entered, and the
    journal holds no closing. *)
Theorem lifespan_failed_startup_never_closes :
  forall (MONGODB_URI : string) (A : Type)
         (serve : AppContext -> M mongo A)
         (cs : list (string * list dict)) (n : N) (e : exn),
    exists w',
      app_lifespan_sync MONGODB_URI serve (mkWorld (mkMongo cs n (Some e)) [])
      = (Raise e, w')
      /\ filter is_ClientClose (journal w') = [].
Proof.
  intros uri A serve cs n e.
  rewrite (lifespan_ping_raises uri A serve (mkMongo cs n (Some e)) e eq_refl).
  eexists. split; [reflexivity|]. cbn [journal].
  now destruct (is_ConnectionFailure e).
Qed.

(** X20: the line "Failed to connect to MongoDB: ..." is printed exactly
    when the exception of the ping is of the [ConnectionFailure] family;
    any other exception leaves startup without that line. *)
Theorem lifespan_reports_connection_failures_only :
  forall (MONGODB_URI : string) (A : Type)
         (serve : AppContext -> M mongo A)
         (cs : list (string * list dict)) (n : N) (e : exn),
    In (Print ("Failed to connect to MongoDB: " ++ exn_str e))
       (journal (snd (app_lifespan_sync MONGODB_URI serve
                        (mkWorld (mkMongo cs n (Some e)) []))))
    <-> is_ConnectionFailure e = true.
Proof.
  intros uri A serve cs n e.
  rewrite (lifespan_ping_raises uri A serve (mkMongo cs n (Some e)) e eq_refl).
  cbn [snd journal]. unfold startup_lines.
  destruct (is_ConnectionFailure e); cbn [app]; split; intros H;
    try reflexivity; try discriminate.
  - do 3 right. now left.
  - simpl in H.
    repeat (destruct H as [H|H]; [discriminate|]). contradiction.
Qed.

(** ** Prompts *)

Lemma append_assoc (a b c : string) : (a ++ b) ++ c = a ++ (b ++ c).
Proof.
  induction a as [|x a IH]; simpl; [reflexivity | now rewrite IH].
Qed.

(** X21: [generate_summary_request] puts the text, whole and unchanged, at
    the end of the prompt, after a header that depends on [max_length]
    only: the prompt for a text is the prompt for the empty text followed
    by the text.  [max_length] does not shorten the text. *)
Theorem generate_summary_request_appends_text :
  forall (text_to_summarize : string) (max_length : option Z),
    generate_summary_request text_to_summarize max_length
    = generate_summary_request "" max_length ++ text_to_summarize.
Proof.
  intros t m. unfold generate_summary_request.
  rewrite !append_assoc. reflexivity.
Qed.

(** X22: [ask_about_mongo_item] pastes its arguments between quotes without
    escaping them, so the message does not determine the arguments: two
    different pairs of collection and item name give the same message. *)
Theorem ask_about_mongo_item_is_ambiguous :
  exists c1 i1 c2 i2 : string,
    (c1, i1) <> (c2, i2)
    /\ ask_about_mongo_item c1 i1 = ask_about_mongo_item c2 i2.
Proof.
  exists "z", "x' in the 'y", "y' in the 'z", "x".
  split; [discriminate | reflexivity].
Qed.
